(** * script/provider.go: resolution of the provider configuration

    A shallow embedding of [Provider] (the option schema) and of
    [providerConfigure] (the function that resolves the options into a
    [Config]), followed by the properties of the resolved [Config].

    Conventions.
    - Go's [interface{}] values read from a [*schema.ResourceData] are the
      tagged union [Value]; a type assertion [v.(T)] without the comma-ok
      form panics on a mismatch, which is the [Panics] outcome.
    - Go's [int] is taken at its 64-bit width; [int64(x)] is written with
      its wrap-around.
    - [runtime.GOOS] and [os.Getenv] are read from an explicit [Env].
    - [hclog.Level] and [hclog.LevelFromString] belong to an external
      library and are section variables. *)

From Stdlib Require Import ZArith String Ascii List Bool Lia.
From stdpp Require Import base option list gmap strings.

Local Open Scope string_scope.

(** ** Values, outcomes and type assertions *)

#[warnings="-register-all"]
Inductive Value : Type :=
  | VNil
  | VString (s : string)
  | VInt (n : Z)
  | VBool (b : bool)
  | VList (l : list Value).

(** The result of running Go code that may panic. *)
Inductive outcome (A : Type) : Type :=
  | Returns (a : A)
  | Panics.
Arguments Returns {A} a.
Arguments Panics {A}.

#[global] Instance outcome_ret : MRet outcome := fun _ a => Returns a.
#[global] Instance outcome_bind : MBind outcome := fun _ _ f m =>
  match m with
  | Returns a => f a
  | Panics => Panics
  end.

(** [v.(string)], [v.(int)], [v.(bool)] and [v.([]interface{})]. *)
Definition assert_string (v : Value) : outcome string :=
  match v with VString s => Returns s | _ => Panics end.
Definition assert_int (v : Value) : outcome Z :=
  match v with VInt n => Returns n | _ => Panics end.
Definition assert_bool (v : Value) : outcome bool :=
  match v with VBool b => Returns b | _ => Panics end.
Definition assert_list (v : Value) : outcome (list Value) :=
  match v with VList l => Returns l | _ => Panics end.

(** ** Machine integers *)

Definition int_min : Z := - 2 ^ 63.
Definition int_max : Z := 2 ^ 63 - 1.
Definition is_int (n : Z) : bool := (int_min <=? n)%Z && (n <=? int_max)%Z.

(** [int64(x)]: reduction to the signed 64-bit range. *)
Definition int64 (n : Z) : Z := ((n + 2 ^ 63) mod 2 ^ 64 - 2 ^ 63)%Z.

(** ** The process environment *)

Record Env : Type := {
  GOOS : string;
  Getenv : string -> string;
}.

(** ** helper/schema

    The package is a dependency of the provider (hashicorp/terraform). The
    definitions of this part follow its behaviour as far as provider.go
    relies on it: the fields of a [Schema] that [Provider] sets, the
    defaults that [Get] applies and the checks of [Validate]. *)

Inductive ValueType : Type := TypeBool | TypeInt | TypeString | TypeList.

Record Schema : Type := {
  Type_ : ValueType;
  Optional : bool;
  Required : bool;
  Default : Value;
  DefaultFunc : option (Env -> Value);
  Elem : option ValueType;
  ConflictsWith : list string;
  ValidateFunc : option (Value -> bool);
}.

(** A schema with only its type set, as a Go struct literal that leaves
    every other field at its zero value. *)
Definition schema_of (t : ValueType) : Schema :=
  {| Type_ := t; Optional := false; Required := false; Default := VNil;
     DefaultFunc := None; Elem := None; ConflictsWith := [];
     ValidateFunc := None |}.

Definition set_Optional (b : bool) (s : Schema) : Schema :=
  {| Type_ := Type_ s; Optional := b; Required := Required s;
     Default := Default s; DefaultFunc := DefaultFunc s; Elem := Elem s;
     ConflictsWith := ConflictsWith s; ValidateFunc := ValidateFunc s |}.
Definition set_Required (b : bool) (s : Schema) : Schema :=
  {| Type_ := Type_ s; Optional := Optional s; Required := b;
     Default := Default s; DefaultFunc := DefaultFunc s; Elem := Elem s;
     ConflictsWith := ConflictsWith s; ValidateFunc := ValidateFunc s |}.
Definition set_Default (v : Value) (s : Schema) : Schema :=
  {| Type_ := Type_ s; Optional := Optional s; Required := Required s;
     Default := v; DefaultFunc := DefaultFunc s; Elem := Elem s;
     ConflictsWith := ConflictsWith s; ValidateFunc := ValidateFunc s |}.
Definition set_DefaultFunc (f : Env -> Value) (s : Schema) : Schema :=
  {| Type_ := Type_ s; Optional := Optional s; Required := Required s;
     Default := Default s; DefaultFunc := Some f; Elem := Elem s;
     ConflictsWith := ConflictsWith s; ValidateFunc := ValidateFunc s |}.
Definition set_Elem (t : ValueType) (s : Schema) : Schema :=
  {| Type_ := Type_ s; Optional := Optional s; Required := Required s;
     Default := Default s; DefaultFunc := DefaultFunc s; Elem := Some t;
     ConflictsWith := ConflictsWith s; ValidateFunc := ValidateFunc s |}.
Definition set_ConflictsWith (ks : list string) (s : Schema) : Schema :=
  {| Type_ := Type_ s; Optional := Optional s; Required := Required s;
     Default := Default s; DefaultFunc := DefaultFunc s; Elem := Elem s;
     ConflictsWith := ks; ValidateFunc := ValidateFunc s |}.
Definition set_ValidateFunc (f : Value -> bool) (s : Schema) : Schema :=
  {| Type_ := Type_ s; Optional := Optional s; Required := Required s;
     Default := Default s; DefaultFunc := DefaultFunc s; Elem := Elem s;
     ConflictsWith := ConflictsWith s; ValidateFunc := Some f |}.

(** [schema.EnvDefaultFunc(k, dv)]: the variable's value when it is set to
    a non-empty string, [dv] otherwise. *)
Definition EnvDefaultFunc (k : string) (dv : Value) (env : Env) : Value :=
  if String.eqb (Getenv env k) "" then dv else VString (Getenv env k).

(** ASCII case folding, for [validation.StringInSlice(valid, true)]. *)
Definition lower_ascii (c : ascii) : ascii :=
  let n := nat_of_ascii c in
  if (65 <=? n)%nat && (n <=? 90)%nat then ascii_of_nat (n + 32) else c.

Fixpoint ToLower (s : string) : string :=
  match s with
  | EmptyString => EmptyString
  | String c r => String (lower_ascii c) (ToLower r)
  end.

Definition StringInSlice (valid : list string) (ignoreCase : bool)
    (v : Value) : bool :=
  match v with
  | VString s =>
      existsb (fun str =>
        String.eqb s str
        || (ignoreCase && String.eqb (ToLower s) (ToLower str))) valid
  | _ => false
  end.

(** ** The provider schema *)

Definition LF : string := String (ascii_of_nat 10) EmptyString.

Definition ValidLevelsStrings : list string :=
  ["TRACE"; "DEBUG"; "INFO"; "WARN"; "ERROR"].

(** The [Schema] map of [Provider()]. Go rejects a map literal with a
    repeated constant key, so the association list has distinct keys. The
    [Description] texts are documentation and are left out. *)
Definition Provider_Schema : list (string * Schema) :=
  [ ("buffer_size",
      set_Default (VInt (1 * 1024 * 1024))
        (set_Optional true (schema_of TypeInt)));
    ("log_provider_name",
      set_Optional true (set_Default (VString "") (schema_of TypeString)));
    ("log_level",
      set_ValidateFunc (StringInSlice ValidLevelsStrings true)
        (set_Default (VString "WARN")
          (set_Optional true (schema_of TypeString))));
    ("command_log_level",
      set_ValidateFunc (StringInSlice ValidLevelsStrings true)
        (set_Default (VString "INFO")
          (set_Optional true (schema_of TypeString))));
    ("command_log_width",
      set_Default (VInt 1) (set_Optional true (schema_of TypeInt)));
    ("interpreter",
      set_Elem TypeString (set_Optional true (schema_of TypeList)));
    ("working_directory",
      set_DefaultFunc (EnvDefaultFunc "PWD" VNil)
        (set_Required true (schema_of TypeString)));
    ("include_parent_environment",
      set_Default (VBool true) (set_Optional true (schema_of TypeBool)));
    ("command_prefix",
      set_Default (VString "") (set_Optional true (schema_of TypeString)));
    ("command_joiner",
      set_Default (VString ("%s" +:+ LF +:+ "%s"))
        (set_Optional true (schema_of TypeString)));
    ("command_isolator",
      set_Default (VString ("(" +:+ LF +:+ "%s" +:+ LF +:+ ")"))
        (set_Optional true (schema_of TypeString)));
    ("create_command", set_Required true (schema_of TypeString));
    ("read_command", set_Required true (schema_of TypeString));
    ("delete_on_read_failure",
      set_Default (VBool true) (set_Optional true (schema_of TypeBool)));
    ("read_format",
      set_ValidateFunc (StringInSlice ["raw"; "base64"] false)
        (set_Default (VString "raw")
          (set_Optional true (schema_of TypeString))));
    ("read_line_prefix",
      set_Default (VString "") (set_Optional true (schema_of TypeString)));
    ("update_command",
      set_Default (VString "") (set_Optional true (schema_of TypeString)));
    ("delete_before_update",
      set_Default (VBool false) (set_Optional true (schema_of TypeBool)));
    ("create_before_update",
      set_ConflictsWith ["create_after_update"]
        (set_Default (VBool false)
          (set_Optional true (schema_of TypeBool))));
    ("create_after_update",
      set_ConflictsWith ["create_before_update"]
        (set_Default (VBool false)
          (set_Optional true (schema_of TypeBool))));
    ("exists_command",
      set_Default (VString "") (set_Optional true (schema_of TypeString)));
    ("exists_expected_status",
      set_Default (VInt 0) (set_Optional true (schema_of TypeInt)));
    ("delete_command", set_Required true (schema_of TypeString)) ].

Fixpoint schema_lookup (m : list (string * Schema)) (key : string)
    : option Schema :=
  match m with
  | [] => None
  | (k, s) :: rest =>
      if String.eqb k key then Some s else schema_lookup rest key
  end.

(** ** schema.ResourceData

    The provider block as the field reader presents it: the keys the user
    set, each with its value already decoded to a [Value]. *)
Record ResourceData : Type := {
  config : gmap string Value;
}.

(** [Schema.ZeroValue()]. *)
Definition ZeroValue (t : ValueType) : Value :=
  match t with
  | TypeBool => VBool false
  | TypeInt => VInt 0
  | TypeString => VString ""
  | TypeList => VList []
  end.

(** [Schema.DefaultValue()]: [Default] when it is set, else the result of
    [DefaultFunc] when there is one, else nil. *)
Definition DefaultValue (env : Env) (s : Schema) : Value :=
  match Default s with
  | VNil =>
      match DefaultFunc s with
      | Some f => f env
      | None => VNil
      end
  | v => v
  end.

(** A nil result read as the zero value of the type. *)
Definition or_zero (t : ValueType) (v : Value) : Value :=
  match v with
  | VNil => ZeroValue t
  | _ => v
  end.

(** [d.Get(key)]: the configured value, else the schema's default, else
    the zero value of the schema's type; nil for a key the schema lacks. *)
Definition Get (env : Env) (d : ResourceData) (key : string) : Value :=
  match schema_lookup Provider_Schema key with
  | None => VNil
  | Some s =>
      match config d !! key with
      | Some v => v
      | None => or_zero (Type_ s) (DefaultValue env s)
      end
  end.

(** ** Schema validation

    What [schemaMap.Validate] checks before the configure function is
    called: a required key has a value, a key that is set does not
    conflict with another key that is set, and a value has the type of its
    schema and passes its [ValidateFunc]. *)

(** A decoded value of a primitive type; an [int] fits the machine word. *)
Definition primitive_has_type (t : ValueType) (v : Value) : bool :=
  match t, v with
  | TypeBool, VBool _ => true
  | TypeInt, VInt n => is_int n
  | TypeString, VString _ => true
  | _, _ => false
  end.

(** [validateType]: a list is checked element by element against [Elem],
    a primitive against its type and then by [ValidateFunc]. *)
Definition validateType (s : Schema) (raw : Value) : bool :=
  match Type_ s with
  | TypeList =>
      match raw, Elem s with
      | VList l, Some t => forallb (primitive_has_type t) l
      | _, _ => false
      end
  | t =>
      primitive_has_type t raw
      && match ValidateFunc s with
         | Some f => f raw
         | None => true
         end
  end.

(** [_, ok := c.Get(k)]. *)
Definition is_set (c : gmap string Value) (k : string) : bool :=
  match c !! k with
  | Some _ => true
  | None => false
  end.

(** [validateConflictingAttributes]: an error as soon as one of the keys
    in [ConflictsWith] is set in the configuration, whatever its value. *)
Definition validateConflictingAttributes (s : Schema)
    (c : gmap string Value) : bool :=
  forallb (fun conflictingKey => negb (is_set c conflictingKey))
          (ConflictsWith s).

(** [schemaMap.validate] for one key: a key without a value, not even from
    a [DefaultFunc], is an error only when it is required; a key with a
    value is checked for conflicts and for its type. *)
Definition validate (env : Env) (c : gmap string Value) (k : string)
    (s : Schema) : bool :=
  let '(raw, ok) :=
    match c !! k with
    | Some v => (v, true)
    | None =>
        match DefaultFunc s with
        | Some f =>
            (f env, match f env with VNil => false | _ => true end)
        | None => (VNil, false)
        end
    end in
  if negb ok then negb (Required s)
  else
    (Required s || Optional s)
    && validateConflictingAttributes s c
    && validateType s raw.

(** [Provider.Validate]: every key of the schema passes. *)
Definition Validate (env : Env) (d : ResourceData) : bool :=
  forallb (fun ks => validate env (config d) (fst ks) (snd ks))
          Provider_Schema.

(** ** The resolved configuration *)

Inductive Writer : Type := OsStderr | OsStdout.

(** The package variables that keep the original streams. *)
Definition Stderr : Writer := OsStderr.
Definition Stdout : Writer := OsStdout.

Inductive error : Type := errorString (msg : string).

Section Configure.

(** [hclog.Level] and [hclog.LevelFromString]. *)
Variable Level : Type.
Variable LevelFromString : string -> Level.

(** [hclog.LoggerOptions]; a logger is determined by the options it was
    made with. *)
Record Logger_ : Type := {
  JSONFormat : bool;
  Output : Writer;
  Level_ : Level;
}.

Record Config : Type := {
  Logger : Logger_;
  CommandLogLevel : Level;
  CommandLogWidth : Z;
  CommandIsolator : string;
  CommandJoiner : string;
  CommandPrefix : string;
  Interpreter : list string;
  WorkingDirectory : string;
  IncludeParentEnvironment : bool;
  BufferSize : Z;
  CreateCommand : string;
  ReadCommand : string;
  DeleteOnReadFailure : bool;
  ReadFormat : string;
  ReadLinePrefix : string;
  UpdateCommand : string;
  DeleteBeforeUpdate : bool;
  CreateAfterUpdate : bool;
  CreateBeforeUpdate : bool;
  DeleteCommand : string;
  ExistsCommand : string;
  ExistsExpectedStatus : Z;
  LogProviderName : string;
}.

(** [make([]string, n)]. *)
Definition make_strings (n : nat) : list string := replicate n "".

(** [for i, vI := range interpreterI { interpreter[i] = vI.(string) }],
    from index [i] on. *)
Fixpoint range_assign (i : nat) (interpreterI : list Value)
    (interpreter : list string) : outcome (list string) :=
  match interpreterI with
  | [] => Returns interpreter
  | vI :: rest =>
      s ← assert_string vI;
      range_assign (S i) rest (<[i := s]> interpreter)
  end.

Definition providerConfigure (env : Env) (d : ResourceData)
    : outcome (Config * option error) :=
  interpreterI ← assert_list (Get env d "interpreter");
  let interpreterI :=
    if (length interpreterI =? 0)%nat then
      let interpreterI :=
        if String.eqb (GOOS env) "windows"
        then [VString "cmd"; VString "/C"]
        else interpreterI in
      [VString "/bin/sh"; VString "-c"]
    else interpreterI in
  let interpreter := make_strings (length interpreterI) in
  interpreter ← range_assign 0 interpreterI interpreter;
  log_level ← assert_string (Get env d "log_level");
  let logger :=
    {| JSONFormat := String.eqb (Getenv env "TF_ACC") "";
       Output := Stderr;
       Level_ := LevelFromString log_level |} in
  dbu ← assert_bool (Get env d "delete_before_update");
  cau ← assert_bool (Get env d "create_after_update");
  cbu ← assert_bool (Get env d "create_before_update");
  update ← assert_string (Get env d "update_command");
  let '(dbu, cau, cbu) :=
    if String.eqb update "" then (true, true, false) else (dbu, cau, cbu) in
  command_log_level ← assert_string (Get env d "command_log_level");
  command_log_width ← assert_int (Get env d "command_log_width");
  command_isolator ← assert_string (Get env d "command_isolator");
  command_joiner ← assert_string (Get env d "command_joiner");
  command_prefix ← assert_string (Get env d "command_prefix");
  working_directory ← assert_string (Get env d "working_directory");
  include_parent_environment ←
    assert_bool (Get env d "include_parent_environment");
  buffer_size ← assert_int (Get env d "buffer_size");
  create_command ← assert_string (Get env d "create_command");
  read_command ← assert_string (Get env d "read_command");
  delete_on_read_failure ← assert_bool (Get env d "delete_on_read_failure");
  read_format ← assert_string (Get env d "read_format");
  read_line_prefix ← assert_string (Get env d "read_line_prefix");
  delete_command ← assert_string (Get env d "delete_command");
  exists_command ← assert_string (Get env d "exists_command");
  exists_expected_status ← assert_int (Get env d "exists_expected_status");
  log_provider_name ← assert_string (Get env d "log_provider_name");
  let config :=
    {| Logger := logger;
       CommandLogLevel := LevelFromString command_log_level;
       CommandLogWidth := command_log_width;
       CommandIsolator := command_isolator;
       CommandJoiner := command_joiner;
       CommandPrefix := command_prefix;
       Interpreter := interpreter;
       WorkingDirectory := working_directory;
       IncludeParentEnvironment := include_parent_environment;
       BufferSize := int64 buffer_size;
       CreateCommand := create_command;
       ReadCommand := read_command;
       DeleteOnReadFailure := delete_on_read_failure;
       ReadFormat := read_format;
       ReadLinePrefix := read_line_prefix;
       UpdateCommand := update;
       DeleteBeforeUpdate := dbu;
       CreateAfterUpdate := cau;
       CreateBeforeUpdate := cbu;
       DeleteCommand := delete_command;
       ExistsCommand := exists_command;
       ExistsExpectedStatus := exists_expected_status;
       LogProviderName := log_provider_name |} in
  Returns (config, None).

End Configure.

Arguments JSONFormat {Level} _.
Arguments Output {Level} _.
Arguments Level_ {Level} _.
Arguments Logger {Level} _.
Arguments CommandLogLevel {Level} _.
Arguments CommandLogWidth {Level} _.
Arguments CommandIsolator {Level} _.
Arguments CommandJoiner {Level} _.
Arguments CommandPrefix {Level} _.
Arguments Interpreter {Level} _.
Arguments WorkingDirectory {Level} _.
Arguments IncludeParentEnvironment {Level} _.
Arguments BufferSize {Level} _.
Arguments CreateCommand {Level} _.
Arguments ReadCommand {Level} _.
Arguments DeleteOnReadFailure {Level} _.
Arguments ReadFormat {Level} _.
Arguments ReadLinePrefix {Level} _.
Arguments UpdateCommand {Level} _.
Arguments DeleteBeforeUpdate {Level} _.
Arguments CreateAfterUpdate {Level} _.
Arguments CreateBeforeUpdate {Level} _.
Arguments DeleteCommand {Level} _.
Arguments ExistsCommand {Level} _.
Arguments ExistsExpectedStatus {Level} _.
Arguments LogProviderName {Level} _.
Arguments providerConfigure {Level} LevelFromString env d.

(** ** Concrete inputs *)

(** An instance of the logging levels for the examples: the level names
    of [ValidLevelsStrings], matched without regard to case. *)
Inductive SampleLevel : Type := NoLevel | Trace | Debug | Info | Warn | Error.

Definition sampleLevelFromString (s : string) : SampleLevel :=
  if String.eqb (ToLower s) "trace" then Trace
  else if String.eqb (ToLower s) "debug" then Debug
  else if String.eqb (ToLower s) "info" then Info
  else if String.eqb (ToLower s) "warn" then Warn
  else if String.eqb (ToLower s) "error" then Error
  else NoLevel.

(** Two environments, each with [PWD] set and [TF_ACC] unset. *)
Definition linux : Env :=
  {| GOOS := "linux";
     Getenv := fun k => if String.eqb k "PWD" then "/srv" else "" |}.
Definition windows : Env :=
  {| GOOS := "windows";
     Getenv := fun k => if String.eqb k "PWD" then "C:\srv" else "" |}.

(** The three required commands and nothing else. *)
Definition minimal : ResourceData :=
  {| config := <["create_command" := VString "touch f"]>
               (<["read_command" := VString "cat f"]>
               (<["delete_command" := VString "rm f"]> ∅)) |}.

(** The input [d] with the key [k] set to [v]. *)
Definition with_option (k : string) (v : Value) (d : ResourceData)
    : ResourceData :=
  {| config := <[k := v]> (config d) |}.

(** ** Well-formedness of the schema and of the values read from it *)

(** A value of the schema's type: for a list, every element has the
    element type. *)
Definition well_typed (s : Schema) (v : Value) : bool :=
  match Type_ s with
  | TypeList =>
      match v, Elem s with
      | VList l, Some t => forallb (primitive_has_type t) l
      | _, _ => false
      end
  | t => primitive_has_type t v
  end.


(** Every value read through [Get] has the type of its schema. The field
    reader of a [ResourceData] decodes each value by its schema, so this
    holds of the data a configure function is given. *)
Definition Typed (env : Env) (d : ResourceData) : bool :=
  forallb (fun ks => well_typed (snd ks) (Get env d (fst ks)))
          Provider_Schema.

(** The static default of a key. *)
Definition default_of (key : string) : Value :=
  match schema_lookup Provider_Schema key with
  | Some s => Default s
  | None => VNil
  end.

(** ** Inputs that differ only in some keys *)

(** Two inputs differ only in the keys [ks] when their configurations are
    equal once those keys are removed. *)
Definition delete_keys (ks : list string) (c : gmap string Value)
    : gmap string Value :=
  foldr delete c ks.

Definition differ_only_in (ks : list string) (d1 d2 : ResourceData) : Prop :=
  delete_keys ks (config d1) = delete_keys ks (config d2).

Definition logging_keys : list string :=
  ["log_level"; "command_log_level"; "command_log_width";
   "log_provider_name"].

Definition update_keys : list string :=
  ["delete_before_update"; "create_before_update"; "create_after_update";
   "update_command"].

(** The fields of a [Config] in three groups. *)
Definition logging_agree {L : Type} (c1 c2 : Config L) : Prop :=
  Logger c1 = Logger c2
  /\ CommandLogLevel c1 = CommandLogLevel c2
  /\ CommandLogWidth c1 = CommandLogWidth c2
  /\ LogProviderName c1 = LogProviderName c2.

Definition update_agree {L : Type} (c1 c2 : Config L) : Prop :=
  UpdateCommand c1 = UpdateCommand c2
  /\ DeleteBeforeUpdate c1 = DeleteBeforeUpdate c2
  /\ CreateAfterUpdate c1 = CreateAfterUpdate c2
  /\ CreateBeforeUpdate c1 = CreateBeforeUpdate c2.

Definition core_agree {L : Type} (c1 c2 : Config L) : Prop :=
  Interpreter c1 = Interpreter c2
  /\ WorkingDirectory c1 = WorkingDirectory c2
  /\ IncludeParentEnvironment c1 = IncludeParentEnvironment c2
  /\ BufferSize c1 = BufferSize c2
  /\ CommandIsolator c1 = CommandIsolator c2
  /\ CommandJoiner c1 = CommandJoiner c2
  /\ CommandPrefix c1 = CommandPrefix c2
  /\ CreateCommand c1 = CreateCommand c2
  /\ ReadCommand c1 = ReadCommand c2
  /\ DeleteCommand c1 = DeleteCommand c2
  /\ ExistsCommand c1 = ExistsCommand c2
  /\ DeleteOnReadFailure c1 = DeleteOnReadFailure c2
  /\ ReadFormat c1 = ReadFormat c2
  /\ ReadLinePrefix c1 = ReadLinePrefix c2
  /\ ExistsExpectedStatus c1 = ExistsExpectedStatus c2.

(** ** Format placeholders

    The number of operands a [fmt] format consumes: one for each verb; a
    doubled percent sign is a literal and a percent sign that ends the
    format has no verb. Flags, width and precision between the percent
    sign and the verb are skipped; explicit argument indexes and [*] are
    not modelled. *)
Definition is_modifier (c : ascii) : bool :=
  let n := nat_of_ascii c in
  (48 <=? n)%nat && (n <=? 57)%nat
  || Ascii.eqb c "+" || Ascii.eqb c "-" || Ascii.eqb c "#"
  || Ascii.eqb c " " || Ascii.eqb c ".".

Fixpoint count_verbs (in_verb : bool) (format : string) : nat :=
  match format with
  | EmptyString => 0
  | String c rest =>
      if in_verb then
        if is_modifier c then count_verbs true rest
        else if Ascii.eqb c "%" then count_verbs false rest
        else S (count_verbs false rest)
      else count_verbs (Ascii.eqb c "%") rest
  end.

Definition placeholders (format : string) : nat := count_verbs false format.

(** ** The exists check of the lifecycle sequencer *)

Module Lifecycle.

(** Modelled from the spec: the failures of the process runner (4.2) that
    leave a run without an exit code. The runner is not part of
    provider.go. *)
Inductive RunError : Type := SpawnError | EnvironmentError | CancelledError.

(** Modelled from the spec: the execution result (3), without the stderr
    bytes, which are logged and not returned. *)
Record ExecutionResult : Type := {
  exitCode : Z;
  stdout : string;
  truncated : bool;
}.

(** Modelled from the spec: the composer (4.1) applied to one command,
    [CommandPrefix + command] if the prefix is non-empty, else the
    command unchanged. The composer is not part of provider.go. *)
Definition compose_one {L : Type} (cfg : Config L) (command : string)
    : string :=
  if String.eqb (CommandPrefix cfg) "" then command
  else CommandPrefix cfg +:+ command.

(** Modelled from the spec: the Exists operation (4.4), which composes and
    runs [ExistsCommand] and reports the resource present iff the exit
    code equals [ExistsExpectedStatus]; another exit code is absent with
    no error, and only a failure to run is an error. The resource
    operations are not part of provider.go; [run] is the process
    runner. *)
Definition Exists {L : Type} (run : string -> RunError + ExecutionResult)
    (cfg : Config L) : bool * option RunError :=
  match run (compose_one cfg (ExistsCommand cfg)) with
  | inl err => (false, Some err)
  | inr res => (Z.eqb (exitCode res) (ExistsExpectedStatus cfg), None)
  end.

End Lifecycle.

(** A runner for the examples: the command text decides the exit code. *)
Definition sample_run (command : string)
    : Lifecycle.RunError + Lifecycle.ExecutionResult :=
  if String.eqb command "" then inl Lifecycle.SpawnError
  else inr {| Lifecycle.exitCode :=
                if String.prefix "test" command then 3 else 1;
              Lifecycle.stdout := "";
              Lifecycle.truncated := false |}.

(** ** The reads of [providerConfigure] *)

(** The three booleans of the update sequencing. *)
Definition flag_keys : list string :=
  ["delete_before_update"; "create_before_update"; "create_after_update"].

(** What a type assertion [v.(T)] asks of [v]: the dynamic type alone. *)
Definition has_dynamic_type (t : ValueType) (v : Value) : bool :=
  match t, v with
  | TypeBool, VBool _ => true
  | TypeInt, VInt _ => true
  | TypeString, VString _ => true
  | TypeList, VList _ => true
  | _, _ => false
  end.

(** The keys that [providerConfigure] reads, in the order of the reads,
    each with the type its assertion names. *)
Definition asserted_reads : list (string * ValueType) :=
  [ ("interpreter", TypeList);
    ("log_level", TypeString);
    ("delete_before_update", TypeBool);
    ("create_after_update", TypeBool);
    ("create_before_update", TypeBool);
    ("update_command", TypeString);
    ("command_log_level", TypeString);
    ("command_log_width", TypeInt);
    ("command_isolator", TypeString);
    ("command_joiner", TypeString);
    ("command_prefix", TypeString);
    ("working_directory", TypeString);
    ("include_parent_environment", TypeBool);
    ("buffer_size", TypeInt);
    ("create_command", TypeString);
    ("read_command", TypeString);
    ("delete_on_read_failure", TypeBool);
    ("read_format", TypeString);
    ("read_line_prefix", TypeString);
    ("delete_command", TypeString);
    ("exists_command", TypeString);
    ("exists_expected_status", TypeInt);
    ("log_provider_name", TypeString) ].

(** Every read has the asserted type, and so has every element of the
    interpreter list, which the copy loop asserts to be a string. *)
Definition reads_ok (env : Env) (d : ResourceData) : bool :=
  forallb (fun kt => has_dynamic_type (snd kt) (Get env d (fst kt)))
          asserted_reads
  && match Get env d "interpreter" with
     | VList l => forallb (has_dynamic_type TypeString) l
     | _ => false
     end.

(** The environment [env] on another operating system. *)
Definition on_GOOS (goos : string) (env : Env) : Env :=
  {| GOOS := goos; Getenv := Getenv env |}.

(** * Properties *)

Local Open Scope list_scope.

(** ** Reading the schema *)

Lemma schema_lookup_In m k s :
  schema_lookup m k = Some s -> In (k, s) m.
Proof.
  induction m as [|[k' s'] m IH]; simpl; [discriminate|].
  destruct (String.eqb k' k) eqn:E.
  - apply String.eqb_eq in E. intros [= ->]. left. now subst.
  - intros H. right. now apply IH.
Qed.




Lemma Provider_Schema_keys : NoDup (map fst Provider_Schema).
Proof. apply (bool_decide_unpack _). vm_compute. reflexivity. Qed.

Lemma In_schema_lookup m k s :
  NoDup (map fst m) -> In (k, s) m -> schema_lookup m k = Some s.
Proof.
  induction m as [|[k' s'] m IH]; simpl; [tauto|].
  intros Hnd [Heq|Hin].
  - injection Heq as -> ->. now rewrite String.eqb_refl.
  - apply NoDup_cons in Hnd as [Hk' Hnd].
    destruct (String.eqb k' k) eqn:E; [|now apply IH].
    apply String.eqb_eq in E. subst k'. exfalso. apply Hk'.
    apply list_elem_of_In, in_map_iff. now exists (k, s).
Qed.


Lemma Get_well_typed env d k s :
  Typed env d = true ->
  schema_lookup Provider_Schema k = Some s ->
  well_typed s (Get env d k) = true.
Proof.
  intros HT Hk. unfold Typed in HT. rewrite forallb_forall in HT.
  apply (HT (k, s)). now apply schema_lookup_In.
Qed.

(** A key the user set reads as set; a key left out reads as its default. *)
Lemma Get_set env d k s v :
  schema_lookup Provider_Schema k = Some s ->
  config d !! k = Some v -> Get env d k = v.
Proof. intros Hk Hc. unfold Get. now rewrite Hk, Hc. Qed.

Lemma Get_unset env d k s :
  schema_lookup Provider_Schema k = Some s ->
  config d !! k = None ->
  Get env d k = or_zero (Type_ s) (DefaultValue env s).
Proof. intros Hk Hc. unfold Get. now rewrite Hk, Hc. Qed.

(** ** Outcomes and type assertions *)

Lemma bind_Returns {A B} (m : outcome A) (f : A -> outcome B) b :
  mbind f m = Returns b -> exists a, m = Returns a /\ f a = Returns b.
Proof. destruct m as [a|]; simpl; [eauto | discriminate]. Qed.

Lemma assert_string_Returns v s :
  assert_string v = Returns s -> v = VString s.
Proof. destruct v; simpl; congruence. Qed.

Lemma assert_int_Returns v n : assert_int v = Returns n -> v = VInt n.
Proof. destruct v; simpl; congruence. Qed.

Lemma assert_bool_Returns v b : assert_bool v = Returns b -> v = VBool b.
Proof. destruct v; simpl; congruence. Qed.

Lemma assert_list_Returns v l : assert_list v = Returns l -> v = VList l.
Proof. destruct v; simpl; congruence. Qed.

(** Splits the first bind of [H] and turns the assertion it finds into an
    equation on the asserted value. *)
Ltac inv_bind H :=
  let a := fresh "a" in
  let Ha := fresh "Ha" in
  apply bind_Returns in H; destruct H as (a & Ha & H);
  first [ apply assert_string_Returns in Ha
        | apply assert_int_Returns in Ha
        | apply assert_bool_Returns in Ha
        | apply assert_list_Returns in Ha
        | idtac ].

(** ** The copy loop *)

Lemma range_assign_inv vs : forall pre post r,
  length post = length vs ->
  range_assign (length pre) vs (pre ++ post) = Returns r ->
  VString <$> r = (VString <$> pre) ++ vs.
Proof.
  induction vs as [|v vs IH]; intros pre post r Hlen H.
  - destruct post; [|discriminate]. simpl in H. injection H as <-.
    now rewrite !app_nil_r.
  - destruct post as [|p post]; [discriminate|]. simpl in H.
    inv_bind H. subst v.
    rewrite insert_app_r_alt in H by lia.
    rewrite Nat.sub_diag in H. simpl in H.
    change (pre ++ a :: post) with (pre ++ [a] ++ post) in H.
    rewrite app_assoc in H.
    replace (S (length pre)) with (length (pre ++ [a])) in H
      by (rewrite length_app; simpl; lia).
    apply IH in H; [|simpl in Hlen; lia].
    rewrite H, fmap_app. simpl. now rewrite <- app_assoc.
Qed.

Lemma range_assign_total vs : forall pre post,
  length post = length vs ->
  forallb (primitive_has_type TypeString) vs = true ->
  exists r, range_assign (length pre) vs (pre ++ post) = Returns r.
Proof.
  induction vs as [|v vs IH]; intros pre post Hlen Hty.
  - simpl. eauto.
  - destruct post as [|p post]; [discriminate|]. simpl in Hty.
    apply andb_true_iff in Hty as [Hv Hty].
    destruct v; try discriminate. simpl.
    rewrite insert_app_r_alt by lia. rewrite Nat.sub_diag. simpl.
    change (pre ++ s :: post) with (pre ++ [s] ++ post).
    rewrite app_assoc.
    replace (S (length pre)) with (length (pre ++ [s]))
      by (rewrite length_app; simpl; lia).
    apply IH; [simpl in Hlen; lia | exact Hty].
Qed.

Lemma copy_loop_inv vs r :
  range_assign 0 vs (make_strings (length vs)) = Returns r ->
  VString <$> r = vs.
Proof.
  intros H.
  apply (range_assign_inv vs [] (make_strings (length vs))) in H; trivial.
  unfold make_strings. now rewrite length_replicate.
Qed.

Lemma copy_loop_total vs :
  forallb (primitive_has_type TypeString) vs = true ->
  exists r, range_assign 0 vs (make_strings (length vs)) = Returns r.
Proof.
  intros H.
  apply (range_assign_total vs [] (make_strings (length vs))); trivial.
  unfold make_strings. now rewrite length_replicate.
Qed.

(** ** What [providerConfigure] returns *)

Section Resolution.

Context {Level : Type} (LevelFromString : string -> Level).
Variables (env : Env) (d : ResourceData).

(** Every field of a returned [Config] in terms of the values read. *)
Lemma providerConfigure_inv (cfg : Config Level) (e : option error) :
  providerConfigure LevelFromString env d = Returns (cfg, e) ->
  e = None
  /\ (exists interpreterI,
        Get env d "interpreter" = VList interpreterI
        /\ VString <$> Interpreter cfg =
             if (length interpreterI =? 0)%nat
             then [VString "/bin/sh"; VString "-c"] else interpreterI)
  /\ (exists log_level,
        Get env d "log_level" = VString log_level
        /\ Logger cfg =
             {| JSONFormat := String.eqb (Getenv env "TF_ACC") "";
                Output := Stderr;
                Level_ := LevelFromString log_level |})
  /\ (exists dbu cau cbu,
        Get env d "delete_before_update" = VBool dbu
        /\ Get env d "create_after_update" = VBool cau
        /\ Get env d "create_before_update" = VBool cbu
        /\ (DeleteBeforeUpdate cfg, CreateAfterUpdate cfg,
            CreateBeforeUpdate cfg) =
             if String.eqb (UpdateCommand cfg) ""
             then (true, true, false) else (dbu, cau, cbu))
  /\ Get env d "update_command" = VString (UpdateCommand cfg)
  /\ (exists command_log_level,
        Get env d "command_log_level" = VString command_log_level
        /\ CommandLogLevel cfg = LevelFromString command_log_level)
  /\ Get env d "command_log_width" = VInt (CommandLogWidth cfg)
  /\ Get env d "command_isolator" = VString (CommandIsolator cfg)
  /\ Get env d "command_joiner" = VString (CommandJoiner cfg)
  /\ Get env d "command_prefix" = VString (CommandPrefix cfg)
  /\ Get env d "working_directory" = VString (WorkingDirectory cfg)
  /\ Get env d "include_parent_environment" =
       VBool (IncludeParentEnvironment cfg)
  /\ (exists buffer_size,
        Get env d "buffer_size" = VInt buffer_size
        /\ BufferSize cfg = int64 buffer_size)
  /\ Get env d "create_command" = VString (CreateCommand cfg)
  /\ Get env d "read_command" = VString (ReadCommand cfg)
  /\ Get env d "delete_on_read_failure" = VBool (DeleteOnReadFailure cfg)
  /\ Get env d "read_format" = VString (ReadFormat cfg)
  /\ Get env d "read_line_prefix" = VString (ReadLinePrefix cfg)
  /\ Get env d "delete_command" = VString (DeleteCommand cfg)
  /\ Get env d "exists_command" = VString (ExistsCommand cfg)
  /\ Get env d "exists_expected_status" = VInt (ExistsExpectedStatus cfg)
  /\ Get env d "log_provider_name" = VString (LogProviderName cfg).
Proof.
  intros H. unfold providerConfigure in H.
  inv_bind H. rename a into interpreterI, Ha into HinterpreterI.
  inv_bind H. rename a into interpreter, Ha into Hloop.
  apply copy_loop_inv in Hloop.
  do 5 inv_bind H.
  destruct (String.eqb a3 "") eqn:Hupdate;
    do 17 inv_bind H; injection H as <- <-; simpl; rewrite Hupdate;
    repeat split; eauto 10.
Qed.

End Resolution.

(** ** Well-typed inputs never make a type assertion fail *)



(** ** Keys outside a set of changed keys read the same *)

Lemma lookup_delete_keys ks (c : gmap string Value) k :
  ~ In k ks -> delete_keys ks c !! k = c !! k.
Proof.
  induction ks as [|k' ks IH]; simpl; intros Hk; trivial.
  rewrite lookup_delete_ne by tauto. apply IH. tauto.
Qed.

Lemma Get_differ_only_in ks env d1 d2 k :
  differ_only_in ks d1 d2 -> ~ In k ks -> Get env d1 k = Get env d2 k.
Proof.
  intros Hd Hk. unfold Get.
  rewrite <- (lookup_delete_keys ks (config d1) k Hk).
  rewrite <- (lookup_delete_keys ks (config d2) k Hk).
  now rewrite Hd.
Qed.

(** ** The update flags *)

(** C1. When the update command read from the input is the empty string,
    the resolved [Config] has [DeleteBeforeUpdate = true],
    [CreateAfterUpdate = true] and [CreateBeforeUpdate = false], whatever
    booleans the input gives for the three flags. *)
Theorem empty_update_is_delete_then_create {Level : Type}
    (LevelFromString : string -> Level) env d cfg e :
  providerConfigure LevelFromString env d = Returns (cfg, e) ->
  Get env d "update_command" = VString "" ->
  DeleteBeforeUpdate cfg = true
  /\ CreateAfterUpdate cfg = true
  /\ CreateBeforeUpdate cfg = false.
Proof.
  intros H Hupdate.
  apply providerConfigure_inv in H
    as (_ & _ & _ & (dbu & cau & cbu & _ & _ & _ & Hflags) & Hu & _).
  rewrite Hupdate in Hu. injection Hu as Hu. rewrite <- Hu in Hflags.
  simpl in Hflags. injection Hflags as -> -> ->. auto.
Qed.

Lemma empty_update_is_delete_then_create_witness :
  let d := with_option "delete_before_update" (VBool false)
             (with_option "create_before_update" (VBool true)
               (with_option "update_command" (VString "") minimal)) in
  exists cfg,
    providerConfigure sampleLevelFromString linux d = Returns (cfg, None)
    /\ DeleteBeforeUpdate cfg = true
    /\ CreateAfterUpdate cfg = true
    /\ CreateBeforeUpdate cfg = false.
Proof.
  intros d. eexists. split; [reflexivity|].
  apply (empty_update_is_delete_then_create
           sampleLevelFromString linux d _ None); reflexivity.
Defined.

(** A validated input sets at most one of the two keys that the schema
    declares in conflict. *)
Lemma conflicting_keys_not_both_set env d :
  Validate env d = true ->
  config d !! "create_before_update" = None
  \/ config d !! "create_after_update" = None.
Proof.
  intros HV. unfold Validate in HV. rewrite forallb_forall in HV.
  assert (Hk : exists s,
    schema_lookup Provider_Schema "create_before_update" = Some s)
    by (eexists; reflexivity).
  destruct Hk as [s Hk]. pose proof Hk as Hin.
  apply schema_lookup_In in Hin. specialize (HV _ Hin).
  injection Hk as <-. simpl in HV. unfold validate in HV.
  destruct (config d !! "create_before_update") as [v|]; [|now left].
  right. simpl in HV.
  apply andb_true_iff in HV as [HV _].
  unfold validateConflictingAttributes, is_set in HV. simpl in HV.
  destruct (config d !! "create_after_update"); [discriminate|reflexivity].
Qed.

(** C2. In every [Config] that [providerConfigure] resolves from a
    configuration the schema accepts, [CreateBeforeUpdate] and
    [CreateAfterUpdate] are never both true, whatever values the
    configuration gives to [create_before_update], [create_after_update]
    and [update_command]: an empty update command forces the first flag to
    false, and the [ConflictsWith] entries of the two keys leave at least
    one of them at its default, false. *)
Theorem create_before_and_after_exclusive {Level : Type}
    (LevelFromString : string -> Level) env d cfg e :
  Validate env d = true ->
  providerConfigure LevelFromString env d = Returns (cfg, e) ->
  ~ (CreateBeforeUpdate cfg = true /\ CreateAfterUpdate cfg = true).
Proof.
  intros HV H.
  apply providerConfigure_inv in H
    as (_ & _ & _ & (dbu & cau & cbu & _ & Hcau & Hcbu & Hflags) & _).
  destruct (String.eqb (UpdateCommand cfg) "").
  - injection Hflags as _ _ ->. intros [? _]. discriminate.
  - injection Hflags as _ -> ->.
    destruct (conflicting_keys_not_both_set env d HV) as [Hunset|Hunset].
    + rewrite (Get_unset env d "create_before_update" _ eq_refl Hunset) in Hcbu.
      injection Hcbu as <-. intros [? _]. discriminate.
    + rewrite (Get_unset env d "create_after_update" _ eq_refl Hunset) in Hcau.
      injection Hcau as <-. intros [_ ?]. discriminate.
Qed.

Lemma create_before_and_after_exclusive_witness :
  let d := with_option "create_before_update" (VBool true)
             (with_option "update_command" (VString "patch f") minimal) in
  Validate linux d = true
  /\ exists cfg,
       providerConfigure sampleLevelFromString linux d = Returns (cfg, None)
       /\ CreateBeforeUpdate cfg = true
       /\ ~ (CreateBeforeUpdate cfg = true /\ CreateAfterUpdate cfg = true).
Proof.
  intros d. split; [reflexivity|].
  eexists. split; [reflexivity|]. split; [reflexivity|].
  apply (create_before_and_after_exclusive
           sampleLevelFromString linux d _ None); reflexivity.
Defined.

(** The exclusion rests on the validation of the schema and not on
    [providerConfigure]: from data that sets both keys, the two flags pass
    through unchanged. *)
Example both_flags_pass_through :
  let d := with_option "create_before_update" (VBool true)
             (with_option "create_after_update" (VBool true)
               (with_option "update_command" (VString "patch f") minimal)) in
  Typed linux d = true
  /\ exists cfg,
       providerConfigure sampleLevelFromString linux d = Returns (cfg, None)
       /\ CreateBeforeUpdate cfg = true
       /\ CreateAfterUpdate cfg = true.
Proof.
  intros d. split; [reflexivity|].
  eexists. split; [reflexivity|]. split; reflexivity.
Qed.

(** Validation refuses that input. *)
Example both_flags_refused :
  Validate linux
    (with_option "create_before_update" (VBool true)
      (with_option "create_after_update" (VBool true)
        (with_option "update_command" (VString "patch f") minimal)))
  = false.
Proof. reflexivity. Qed.

(** ** The interpreter *)

Lemma fmap_VString_inj (l1 l2 : list string) :
  VString <$> l1 = VString <$> l2 -> l1 = l2.
Proof.
  revert l2. induction l1 as [|a l1 IH]; intros [|b l2]; simpl;
    try discriminate; trivial.
  intros [= -> H]. f_equal. now apply IH.
Qed.

(** C3. The [Interpreter] of a resolved [Config] is never empty: a
    non-empty list given by the user is taken over element for element, in
    order, and an empty or missing list is replaced by a non-empty
    default. *)
Theorem interpreter_nonempty {Level : Type}
    (LevelFromString : string -> Level) env d cfg e :
  providerConfigure LevelFromString env d = Returns (cfg, e) ->
  Interpreter cfg <> []
  /\ (forall l, config d !! "interpreter" = Some (VList l) -> l <> [] ->
        VString <$> Interpreter cfg = l)
  /\ (config d !! "interpreter" = Some (VList []) ->
        Interpreter cfg = ["/bin/sh"; "-c"])
  /\ (config d !! "interpreter" = None ->
        Interpreter cfg = ["/bin/sh"; "-c"]).
Proof.
  intros H.
  apply providerConfigure_inv in H as (_ & (l & Hget & Hcopy) & _).
  assert (Hdefault : l = [] -> Interpreter cfg = ["/bin/sh"; "-c"]).
  { intros ->. simpl in Hcopy.
    now apply (fmap_VString_inj _ ["/bin/sh"; "-c"]). }
  repeat split.
  - destruct l as [|v l].
    + rewrite Hdefault; [discriminate|reflexivity].
    + simpl in Hcopy. intros Hnil. rewrite Hnil in Hcopy. discriminate.
  - intros l' Hset Hne.
    rewrite (Get_set env d "interpreter" _ _ eq_refl Hset) in Hget.
    injection Hget as <-. destruct l'; [contradiction|exact Hcopy].
  - intros Hset.
    rewrite (Get_set env d "interpreter" _ _ eq_refl Hset) in Hget.
    injection Hget as <-. now apply Hdefault.
  - intros Hunset.
    rewrite (Get_unset env d "interpreter" _ eq_refl Hunset) in Hget.
    injection Hget as <-. now apply Hdefault.
Qed.

Lemma interpreter_nonempty_witness :
  let d := with_option "interpreter"
             (VList [VString "bash"; VString "-eu"; VString "-c"]) minimal in
  exists cfg,
    providerConfigure sampleLevelFromString linux d = Returns (cfg, None)
    /\ Interpreter cfg = ["bash"; "-eu"; "-c"]
    /\ Interpreter cfg <> []
    /\ (forall l, config d !! "interpreter" = Some (VList l) -> l <> [] ->
          VString <$> Interpreter cfg = l)
    /\ (config d !! "interpreter" = Some (VList []) ->
          Interpreter cfg = ["/bin/sh"; "-c"])
    /\ (config d !! "interpreter" = None ->
          Interpreter cfg = ["/bin/sh"; "-c"]).
Proof.
  intros d. eexists. split; [reflexivity|]. split; [reflexivity|].
  apply (interpreter_nonempty sampleLevelFromString linux d _ None).
  reflexivity.
Defined.

(** C4. With no interpreter given, the resolved [Interpreter] is
    [/bin/sh -c] on every operating system, Windows included; the list
    [cmd /C] assigned in the Windows branch is overwritten and reaches a
    [Config] only when the user gives it. *)
Theorem default_interpreter_ignores_GOOS {Level : Type}
    (LevelFromString : string -> Level) env d cfg e :
  providerConfigure LevelFromString env d = Returns (cfg, e) ->
  (config d !! "interpreter" = None
   \/ config d !! "interpreter" = Some (VList []) ->
     Interpreter cfg = ["/bin/sh"; "-c"])
  /\ (Interpreter cfg = ["cmd"; "/C"] ->
        config d !! "interpreter" = Some (VList [VString "cmd"; VString "/C"])).
Proof.
  intros H.
  apply providerConfigure_inv in H as (_ & (l & Hget & Hcopy) & _).
  unfold Get in Hget. simpl in Hget.
  destruct (config d !! "interpreter") as [v|] eqn:Hc; simpl in Hget.
  - subst v. split.
    + intros [|[= ->]]; [discriminate|]. simpl in Hcopy.
      now apply (fmap_VString_inj _ ["/bin/sh"; "-c"]).
    + intros Hcmd. rewrite Hcmd in Hcopy. simpl in Hcopy.
      destruct l; simpl in Hcopy; [discriminate|]. now rewrite Hcopy.
  - injection Hget as <-. simpl in Hcopy.
    apply (fmap_VString_inj _ ["/bin/sh"; "-c"]) in Hcopy.
    split; [trivial|]. rewrite Hcopy. discriminate.
Qed.

Lemma default_interpreter_ignores_GOOS_witness :
  GOOS windows = "windows"
  /\ exists cfg,
       providerConfigure sampleLevelFromString windows minimal
         = Returns (cfg, None)
       /\ Interpreter cfg = ["/bin/sh"; "-c"].
Proof.
  split; [reflexivity|]. eexists. split; [reflexivity|].
  apply (default_interpreter_ignores_GOOS
           sampleLevelFromString windows minimal _ None); [reflexivity|].
  left. reflexivity.
Defined.

(** ** The buffer size *)

Lemma int64_id n : is_int n = true -> int64 n = n.
Proof.
  unfold is_int, int_min, int_max, int64. intros H.
  apply andb_true_iff in H as [Hlo Hhi].
  apply Z.leb_le in Hlo, Hhi.
  rewrite Z.mod_small by lia. lia.
Qed.

(** C5, as the spec states it, fails: the schema puts no bound on
    [buffer_size], and a validated input with [buffer_size = 0] resolves
    to a [BufferSize] that is not positive. *)
Lemma buffer_size_zero_accepted :
  let d := with_option "buffer_size" (VInt 0) minimal in
  Validate linux d = true
  /\ exists cfg,
       providerConfigure sampleLevelFromString linux d = Returns (cfg, None)
       /\ ~ (0 < BufferSize cfg)%Z.
Proof.
  intros d. split; [reflexivity|].
  eexists. split; [reflexivity|].
  intros Hpos. vm_compute in Hpos. discriminate.
Qed.

(** C5, amended. The resolved [BufferSize] is the integer the user gave
    for [buffer_size], whatever its sign, and 1048576 (1 MiB), which is
    positive, when the user gave none. *)
Theorem buffer_size_resolution {Level : Type}
    (LevelFromString : string -> Level) env d cfg e :
  Typed env d = true ->
  providerConfigure LevelFromString env d = Returns (cfg, e) ->
  (forall n, config d !! "buffer_size" = Some (VInt n) -> BufferSize cfg = n)
  /\ (config d !! "buffer_size" = None ->
        BufferSize cfg = 1048576%Z /\ (0 < BufferSize cfg)%Z).
Proof.
  intros HT H.
  pose proof (Get_well_typed env d "buffer_size" _ HT eq_refl) as Hty.
  apply providerConfigure_inv in H.
  destruct H as (_ & _ & _ & _ & _ & _ & _ & _ & _ & _ & _ & _ & Hb & _).
  destruct Hb as (n & Hget & ->).
  rewrite Hget in Hty. unfold well_typed in Hty. simpl in Hty.
  rewrite (int64_id n Hty). split.
  - intros n' Hset.
    rewrite (Get_set env d "buffer_size" _ _ eq_refl Hset) in Hget.
    now injection Hget.
  - intros Hunset.
    rewrite (Get_unset env d "buffer_size" _ eq_refl Hunset) in Hget.
    injection Hget as <-. simpl. lia.
Qed.

Lemma buffer_size_resolution_witness :
  let d := with_option "buffer_size" (VInt (-4096)) minimal in
  Typed linux d = true
  /\ (exists cfg,
        providerConfigure sampleLevelFromString linux d = Returns (cfg, None)
        /\ BufferSize cfg = (-4096)%Z)
  /\ (exists cfg,
        providerConfigure sampleLevelFromString linux minimal
          = Returns (cfg, None)
        /\ BufferSize cfg = 1048576%Z).
Proof.
  intros d. split; [reflexivity|]. split.
  - eexists. split; [reflexivity|].
    apply (buffer_size_resolution sampleLevelFromString linux d _ None);
      reflexivity.
  - eexists. split; [reflexivity|].
    apply (buffer_size_resolution sampleLevelFromString linux minimal _ None);
      reflexivity.
Defined.

(** ** No configuration error *)



(** ** The default templates *)

(** C7. The default joiner template holds exactly two format placeholders
    and the default isolator template exactly one, the numbers the
    composer asks of them; a [Config] resolved from an input that sets
    neither key carries these templates. *)
Theorem default_templates_arity {Level : Type}
    (LevelFromString : string -> Level) env d cfg e :
  config d !! "command_joiner" = None ->
  config d !! "command_isolator" = None ->
  providerConfigure LevelFromString env d = Returns (cfg, e) ->
  default_of "command_joiner" = VString (CommandJoiner cfg)
  /\ default_of "command_isolator" = VString (CommandIsolator cfg)
  /\ CommandJoiner cfg = "%s" +:+ LF +:+ "%s"
  /\ CommandIsolator cfg = "(" +:+ LF +:+ "%s" +:+ LF +:+ ")"
  /\ placeholders (CommandJoiner cfg) = 2
  /\ placeholders (CommandIsolator cfg) = 1.
Proof.
  intros Hj Hi H.
  apply providerConfigure_inv in H.
  destruct H as (_ & _ & _ & _ & _ & _ & _ & Hgi & Hgj & _).
  rewrite (Get_unset env d "command_joiner" _ eq_refl Hj) in Hgj.
  rewrite (Get_unset env d "command_isolator" _ eq_refl Hi) in Hgi.
  injection Hgj as <-. injection Hgi as <-.
  repeat split; reflexivity.
Qed.

Lemma default_templates_arity_witness :
  exists cfg,
    providerConfigure sampleLevelFromString linux minimal = Returns (cfg, None)
    /\ placeholders (CommandJoiner cfg) = 2
    /\ placeholders (CommandIsolator cfg) = 1.
Proof.
  eexists. split; [reflexivity|].
  split;
    apply (default_templates_arity sampleLevelFromString linux minimal _ None);
    reflexivity.
Defined.

(** ** Groups of options that do not reach other fields *)

(** A key is none of the listed ones. *)
Ltac outside := simpl; intuition discriminate.

Section Frames.

Context {Level : Type} (LevelFromString : string -> Level).
Variables (env : Env) (d1 d2 : ResourceData).
Variables (c1 c2 : Config Level) (e1 e2 : option error).
Hypothesis H1 : providerConfigure LevelFromString env d1 = Returns (c1, e1).
Hypothesis H2 : providerConfigure LevelFromString env d2 = Returns (c2, e2).

(** The fields that neither the logging keys nor the update keys feed. *)
Lemma core_fields_agree ks :
  differ_only_in ks d1 d2 ->
  (forall k, In k ks -> In k (logging_keys ++ update_keys)) ->
  core_agree c1 c2.
Proof.
  intros Hd Hks.
  assert (Hout : forall k,
    ~ In k (logging_keys ++ update_keys) -> Get env d1 k = Get env d2 k).
  { intros k Hk. apply (Get_differ_only_in ks); [exact Hd|].
    intros Hin. apply Hk, Hks, Hin. }
  pose proof (Hout "interpreter" ltac:(outside)) as Ki.
  pose proof (Hout "working_directory" ltac:(outside)) as Kw.
  pose proof (Hout "include_parent_environment" ltac:(outside)) as Kp.
  pose proof (Hout "buffer_size" ltac:(outside)) as Kb.
  pose proof (Hout "command_isolator" ltac:(outside)) as Kci.
  pose proof (Hout "command_joiner" ltac:(outside)) as Kcj.
  pose proof (Hout "command_prefix" ltac:(outside)) as Kcp.
  pose proof (Hout "create_command" ltac:(outside)) as Kc.
  pose proof (Hout "read_command" ltac:(outside)) as Kr.
  pose proof (Hout "delete_command" ltac:(outside)) as Kd.
  pose proof (Hout "exists_command" ltac:(outside)) as Ke.
  pose proof (Hout "delete_on_read_failure" ltac:(outside)) as Kf.
  pose proof (Hout "read_format" ltac:(outside)) as Krf.
  pose proof (Hout "read_line_prefix" ltac:(outside)) as Krp.
  pose proof (Hout "exists_expected_status" ltac:(outside)) as Kes.
  clear Hout Hks Hd.
  apply providerConfigure_inv in H1
    as (_ & (l1 & Gi1 & Hi1) & _ & _ & _ & _ & _ & Gci1 & Gcj1 & Gcp1 & Gw1
        & Gp1 & (b1 & Gb1 & Hb1) & Gc1 & Gr1 & Gf1 & Grf1 & Grp1 & Gd1 & Ge1
        & Ges1 & _).
  apply providerConfigure_inv in H2
    as (_ & (l2 & Gi2 & Hi2) & _ & _ & _ & _ & _ & Gci2 & Gcj2 & Gcp2 & Gw2
        & Gp2 & (b2 & Gb2 & Hb2) & Gc2 & Gr2 & Gf2 & Grf2 & Grp2 & Gd2 & Ge2
        & Ges2 & _).
  assert (l1 = l2) as <- by congruence.
  assert (b1 = b2) as <- by congruence.
  unfold core_agree. repeat split; try congruence.
  apply fmap_VString_inj. now rewrite Hi1, Hi2.
Qed.

(** The update fields are fed by the update keys alone. *)
Lemma update_fields_agree ks :
  differ_only_in ks d1 d2 ->
  (forall k, In k ks -> ~ In k update_keys) ->
  update_agree c1 c2.
Proof.
  intros Hd Hks.
  assert (Hout : forall k, In k update_keys -> Get env d1 k = Get env d2 k).
  { intros k Hk. apply (Get_differ_only_in ks); [exact Hd|].
    intros Hin. exact (Hks k Hin Hk). }
  pose proof (Hout "delete_before_update" ltac:(simpl; tauto)) as Kdbu.
  pose proof (Hout "create_after_update" ltac:(simpl; tauto)) as Kcau.
  pose proof (Hout "create_before_update" ltac:(simpl; tauto)) as Kcbu.
  pose proof (Hout "update_command" ltac:(simpl; tauto)) as Ku.
  clear Hout Hks Hd.
  apply providerConfigure_inv in H1
    as (_ & _ & _ & (dbu1 & cau1 & cbu1 & Gd1 & Ga1 & Gb1 & Hf1) & Gu1 & _).
  apply providerConfigure_inv in H2
    as (_ & _ & _ & (dbu2 & cau2 & cbu2 & Gd2 & Ga2 & Gb2 & Hf2) & Gu2 & _).
  assert (Hu : UpdateCommand c1 = UpdateCommand c2) by congruence.
  assert (dbu1 = dbu2) as <- by congruence.
  assert (cau1 = cau2) as <- by congruence.
  assert (cbu1 = cbu2) as <- by congruence.
  rewrite <- Hu, <- Hf1 in Hf2. injection Hf2 as E1 E2 E3.
  unfold update_agree. auto.
Qed.

(** The logging fields are fed by the logging keys alone. *)
Lemma logging_fields_agree ks :
  differ_only_in ks d1 d2 ->
  (forall k, In k ks -> ~ In k logging_keys) ->
  logging_agree c1 c2.
Proof.
  intros Hd Hks.
  assert (Hout : forall k, In k logging_keys -> Get env d1 k = Get env d2 k).
  { intros k Hk. apply (Get_differ_only_in ks); [exact Hd|].
    intros Hin. exact (Hks k Hin Hk). }
  pose proof (Hout "log_level" ltac:(simpl; tauto)) as Kl.
  pose proof (Hout "command_log_level" ltac:(simpl; tauto)) as Kcl.
  pose proof (Hout "command_log_width" ltac:(simpl; tauto)) as Kcw.
  pose proof (Hout "log_provider_name" ltac:(simpl; tauto)) as Kn.
  clear Hout Hks Hd.
  apply providerConfigure_inv in H1
    as (_ & _ & (ll1 & Gl1 & Hl1) & _ & _ & (cl1 & Gcl1 & Hcl1) & Gcw1 & _
        & _ & _ & _ & _ & _ & _ & _ & _ & _ & _ & _ & _ & _ & Gn1).
  apply providerConfigure_inv in H2
    as (_ & _ & (ll2 & Gl2 & Hl2) & _ & _ & (cl2 & Gcl2 & Hcl2) & Gcw2 & _
        & _ & _ & _ & _ & _ & _ & _ & _ & _ & _ & _ & _ & _ & Gn2).
  assert (ll1 = ll2) as <- by congruence.
  assert (cl1 = cl2) as <- by congruence.
  unfold logging_agree. repeat split; congruence.
Qed.

End Frames.

(** C8. Two inputs that differ only in the logging options ([log_level],
    [command_log_level], [command_log_width], [log_provider_name]) resolve
    to [Config]s that agree on every other field: interpreter, working
    directory, environment policy, buffer size, the command strings and
    templates, and the read, update and exists options. *)
Theorem logging_options_are_presentation_only {Level : Type}
    (LevelFromString : string -> Level) env d1 d2 c1 c2 e1 e2 :
  differ_only_in logging_keys d1 d2 ->
  providerConfigure LevelFromString env d1 = Returns (c1, e1) ->
  providerConfigure LevelFromString env d2 = Returns (c2, e2) ->
  core_agree c1 c2 /\ update_agree c1 c2.
Proof.
  intros Hd H1 H2. split.
  - apply (core_fields_agree LevelFromString env d1 d2 c1 c2 e1 e2 H1 H2
             logging_keys Hd).
    intros k Hk. apply in_or_app. now left.
  - apply (update_fields_agree LevelFromString env d1 d2 c1 c2 e1 e2 H1 H2
             logging_keys Hd).
    intros k. simpl. intuition congruence.
Qed.

Lemma logging_options_are_presentation_only_witness :
  let d1 := with_option "log_level" (VString "TRACE")
              (with_option "buffer_size" (VInt 512) minimal) in
  let d2 := with_option "command_log_level" (VString "error")
              (with_option "command_log_width" (VInt 120)
                (with_option "log_provider_name" (VString "files")
                  (with_option "buffer_size" (VInt 512) minimal))) in
  differ_only_in logging_keys d1 d2
  /\ exists c1 c2,
       providerConfigure sampleLevelFromString linux d1 = Returns (c1, None)
       /\ providerConfigure sampleLevelFromString linux d2 = Returns (c2, None)
       /\ Logger c1 <> Logger c2
       /\ core_agree c1 c2 /\ update_agree c1 c2.
Proof.
  intros d1 d2.
  assert (Hd : differ_only_in logging_keys d1 d2) by (vm_compute; reflexivity).
  split; [exact Hd|].
  eexists. eexists. split; [reflexivity|]. split; [reflexivity|].
  split; [discriminate|].
  apply (logging_options_are_presentation_only
           sampleLevelFromString linux d1 d2 _ _ None None Hd);
    reflexivity.
Defined.

(** C9. With a non-empty update command, the update command and the
    booleans for [delete_before_update], [create_before_update] and
    [create_after_update] reach the resolved [Config] unchanged, and no
    other field of the [Config] depends on these four options. *)
Theorem update_options_pass_through {Level : Type}
    (LevelFromString : string -> Level) env d cfg e
    (update : string) (dbu cbu cau : bool) :
  providerConfigure LevelFromString env d = Returns (cfg, e) ->
  Get env d "update_command" = VString update ->
  update <> "" ->
  Get env d "delete_before_update" = VBool dbu ->
  Get env d "create_before_update" = VBool cbu ->
  Get env d "create_after_update" = VBool cau ->
  UpdateCommand cfg = update
  /\ DeleteBeforeUpdate cfg = dbu
  /\ CreateBeforeUpdate cfg = cbu
  /\ CreateAfterUpdate cfg = cau
  /\ (forall d' cfg' e',
        differ_only_in update_keys d d' ->
        providerConfigure LevelFromString env d' = Returns (cfg', e') ->
        core_agree cfg cfg' /\ logging_agree cfg cfg').
Proof.
  intros H Hu Hne Hdbu Hcbu Hcau.
  pose proof H as Hinv.
  apply providerConfigure_inv in Hinv
    as (_ & _ & _ & (dbu' & cau' & cbu' & Gd & Ga & Gb & Hf) & Gu & _).
  assert (Hupdate : UpdateCommand cfg = update) by congruence.
  assert (dbu' = dbu) as -> by congruence.
  assert (cau' = cau) as -> by congruence.
  assert (cbu' = cbu) as -> by congruence.
  rewrite Hupdate in Hf. apply String.eqb_neq in Hne. rewrite Hne in Hf.
  injection Hf as -> -> ->.
  split; [exact Hupdate|]. do 3 (split; [reflexivity|]).
  intros d' cfg' e' Hd H'. split.
  - apply (core_fields_agree LevelFromString env d d' cfg cfg' e e' H H'
             update_keys Hd).
    intros k Hk. apply in_or_app. now right.
  - apply (logging_fields_agree LevelFromString env d d' cfg cfg' e e' H H'
             update_keys Hd).
    intros k. simpl. intuition congruence.
Qed.

Lemma update_options_pass_through_witness :
  let d := with_option "update_command" (VString "patch f")
             (with_option "delete_before_update" (VBool true)
               (with_option "create_after_update" (VBool true) minimal)) in
  let d' := with_option "create_before_update" (VBool true) minimal in
  differ_only_in update_keys d d'
  /\ exists cfg cfg',
       providerConfigure sampleLevelFromString linux d = Returns (cfg, None)
       /\ providerConfigure sampleLevelFromString linux d'
            = Returns (cfg', None)
       /\ UpdateCommand cfg = "patch f"
       /\ DeleteBeforeUpdate cfg = true
       /\ CreateBeforeUpdate cfg = false
       /\ CreateAfterUpdate cfg = true
       /\ core_agree cfg cfg' /\ logging_agree cfg cfg'.
Proof.
  intros d d'.
  assert (Hd : differ_only_in update_keys d d') by (vm_compute; reflexivity).
  split; [exact Hd|].
  eexists. eexists. split; [reflexivity|]. split; [reflexivity|].
  destruct (update_options_pass_through sampleLevelFromString linux d _ None
              "patch f" true false true eq_refl eq_refl
              ltac:(discriminate) eq_refl eq_refl eq_refl)
    as (Hu & Hdbu & Hcbu & Hcau & Hframe).
  repeat (split; [assumption|]).
  apply (Hframe d' _ None Hd). reflexivity.
Defined.

(** ** The exists check *)

(** C10. For every run of the configured exists command that ends with an
    exit code, [Exists] reports the resource present iff the exit code
    equals [ExistsExpectedStatus], which is 0 unless the user sets it, and
    reports any other exit code as absent with no error; [Exists] returns
    an error only when the run itself fails. *)
Theorem exists_iff_expected_status {Level : Type}
    (LevelFromString : string -> Level) env d cfg e
    (run : string -> Lifecycle.RunError + Lifecycle.ExecutionResult) :
  providerConfigure LevelFromString env d = Returns (cfg, e) ->
  let command := Lifecycle.compose_one cfg (ExistsCommand cfg) in
  (config d !! "exists_expected_status" = None ->
     ExistsExpectedStatus cfg = 0%Z)
  /\ (forall n, config d !! "exists_expected_status" = Some (VInt n) ->
        ExistsExpectedStatus cfg = n)
  /\ (forall res, run command = inr res ->
        (fst (Lifecycle.Exists run cfg) = true
           <-> Lifecycle.exitCode res = ExistsExpectedStatus cfg)
        /\ (Lifecycle.exitCode res <> ExistsExpectedStatus cfg ->
              Lifecycle.Exists run cfg = (false, None))
        /\ snd (Lifecycle.Exists run cfg) = None)
  /\ (forall err, snd (Lifecycle.Exists run cfg) = Some err <->
        run command = inl err).
Proof.
  intros H command.
  apply providerConfigure_inv in H.
  destruct H as (_ & _ & _ & _ & _ & _ & _ & _ & _ & _ & _ & _ & _ & _ & _
                 & _ & _ & _ & _ & _ & Hget & _).
  split; [|split; [|split]].
  - intros Hunset.
    rewrite (Get_unset env d "exists_expected_status" _ eq_refl Hunset)
      in Hget.
    now injection Hget.
  - intros n Hset.
    rewrite (Get_set env d "exists_expected_status" _ _ eq_refl Hset)
      in Hget.
    now injection Hget.
  - intros res Hrun. unfold Lifecycle.Exists. fold command. rewrite Hrun.
    simpl. split; [apply Z.eqb_eq|]. split; [|reflexivity].
    intros Hne. apply Z.eqb_neq in Hne. now rewrite Hne.
  - intros err. unfold Lifecycle.Exists. fold command.
    destruct (run command) as [err'|res]; simpl; split; congruence.
Qed.

Lemma exists_iff_expected_status_witness :
  let d := with_option "exists_command" (VString "test -e f")
             (with_option "exists_expected_status" (VInt 3) minimal) in
  exists cfg,
    providerConfigure sampleLevelFromString linux d = Returns (cfg, None)
    /\ ExistsExpectedStatus cfg = 3%Z
    /\ Lifecycle.Exists sample_run cfg = (true, None)
    /\ (fst (Lifecycle.Exists sample_run cfg) = true <-> 3%Z = 3%Z).
Proof.
  intros d. eexists. split; [reflexivity|]. split; [reflexivity|].
  split; [reflexivity|].
  destruct (exists_iff_expected_status sampleLevelFromString linux d _ None
              sample_run eq_refl) as (_ & _ & Hrun & _).
  exact (proj1 (Hrun _ eq_refl)).
Defined.

(** * Further properties of the resolution *)

(** Names every conjunct of [providerConfigure_inv]. *)
Ltac inv_config H :=
  apply providerConfigure_inv in H
    as (He & (interpreterI & Ginterpreter & Hinterpreter)
        & (log_level & Glog_level & Hlogger)
        & (dbu & cau & cbu & Gdbu & Gcau & Gcbu & Hflags)
        & Gupdate
        & (command_log_level & Gcommand_log_level & Hcommand_log_level)
        & Gwidth & Gisolator & Gjoiner & Gprefix & Gworking & Gparent
        & (buffer_size & Gbuffer & Hbuffer)
        & Gcreate & Gread & Gfailure & Gformat & Gline & Gdelete & Gexists
        & Gstatus & Gname).

(** Rewrites a read of [k] with what the configuration says of [k]. *)
Ltac read_unset env d k Hunset G :=
  rewrite (Get_unset env d k _ eq_refl Hunset) in G; simpl in G.
Ltac read_set env d k Hset G :=
  rewrite (Get_set env d k _ _ eq_refl Hset) in G.

(** ** Defaults *)

(** X1. An option the user leaves out takes the default of the schema:
    the parent environment is included, a failed read deletes the
    resource, the read format is raw, the prefixes and the exists and
    update commands are empty (so that an update is a delete followed by
    a create), the log width is 1 and the provider name is empty. *)
Theorem defaults_when_unset {Level : Type}
    (LevelFromString : string -> Level) env d cfg e :
  providerConfigure LevelFromString env d = Returns (cfg, e) ->
  (config d !! "include_parent_environment" = None ->
     IncludeParentEnvironment cfg = true)
  /\ (config d !! "delete_on_read_failure" = None ->
        DeleteOnReadFailure cfg = true)
  /\ (config d !! "read_format" = None -> ReadFormat cfg = "raw")
  /\ (config d !! "command_prefix" = None -> CommandPrefix cfg = "")
  /\ (config d !! "read_line_prefix" = None -> ReadLinePrefix cfg = "")
  /\ (config d !! "exists_command" = None -> ExistsCommand cfg = "")
  /\ (config d !! "update_command" = None ->
        UpdateCommand cfg = ""
        /\ DeleteBeforeUpdate cfg = true
        /\ CreateAfterUpdate cfg = true
        /\ CreateBeforeUpdate cfg = false)
  /\ (config d !! "command_log_width" = None -> CommandLogWidth cfg = 1%Z)
  /\ (config d !! "log_provider_name" = None -> LogProviderName cfg = "").
Proof.
  intros H. inv_config H.
  repeat match goal with |- _ /\ _ => split end; intros Hunset.
  - read_unset env d "include_parent_environment" Hunset Gparent.
    now injection Gparent.
  - read_unset env d "delete_on_read_failure" Hunset Gfailure.
    now injection Gfailure.
  - read_unset env d "read_format" Hunset Gformat. now injection Gformat.
  - read_unset env d "command_prefix" Hunset Gprefix. now injection Gprefix.
  - read_unset env d "read_line_prefix" Hunset Gline. now injection Gline.
  - read_unset env d "exists_command" Hunset Gexists. now injection Gexists.
  - read_unset env d "update_command" Hunset Gupdate.
    injection Gupdate as Hu. rewrite <- Hu in Hflags. simpl in Hflags.
    injection Hflags as -> -> ->. auto.
  - read_unset env d "command_log_width" Hunset Gwidth. now injection Gwidth.
  - read_unset env d "log_provider_name" Hunset Gname. now injection Gname.
Qed.

Lemma defaults_when_unset_witness :
  let d := with_option "create_before_update" (VBool true)
             (with_option "delete_on_read_failure" (VBool false) minimal) in
  exists cfg,
    providerConfigure sampleLevelFromString linux d = Returns (cfg, None)
    /\ DeleteOnReadFailure cfg = false
    /\ IncludeParentEnvironment cfg = true
    /\ ReadFormat cfg = "raw"
    /\ CreateBeforeUpdate cfg = false.
Proof.
  intros d. eexists. split; [reflexivity|]. split; [reflexivity|].
  destruct (defaults_when_unset sampleLevelFromString linux d _ None eq_refl)
    as (Hp & _ & Hf & _ & _ & _ & Hu & _).
  split; [exact (Hp eq_refl)|]. split; [exact (Hf eq_refl)|].
  exact (proj2 (proj2 (proj2 (Hu eq_refl)))).
Defined.

(** ** Command texts *)

(** X2. The command texts and the templates that the user sets reach the
    [Config] byte for byte: nothing is trimmed, quoted or rewritten. *)
Theorem command_texts_verbatim {Level : Type}
    (LevelFromString : string -> Level) env d cfg e :
  providerConfigure LevelFromString env d = Returns (cfg, e) ->
  (forall s, config d !! "create_command" = Some (VString s) ->
     CreateCommand cfg = s)
  /\ (forall s, config d !! "read_command" = Some (VString s) ->
        ReadCommand cfg = s)
  /\ (forall s, config d !! "update_command" = Some (VString s) ->
        UpdateCommand cfg = s)
  /\ (forall s, config d !! "delete_command" = Some (VString s) ->
        DeleteCommand cfg = s)
  /\ (forall s, config d !! "exists_command" = Some (VString s) ->
        ExistsCommand cfg = s)
  /\ (forall s, config d !! "command_prefix" = Some (VString s) ->
        CommandPrefix cfg = s)
  /\ (forall s, config d !! "command_joiner" = Some (VString s) ->
        CommandJoiner cfg = s)
  /\ (forall s, config d !! "command_isolator" = Some (VString s) ->
        CommandIsolator cfg = s)
  /\ (forall s, config d !! "read_line_prefix" = Some (VString s) ->
        ReadLinePrefix cfg = s).
Proof.
  intros H. inv_config H.
  repeat match goal with |- _ /\ _ => split end; intros s Hset.
  - read_set env d "create_command" Hset Gcreate. now injection Gcreate.
  - read_set env d "read_command" Hset Gread. now injection Gread.
  - read_set env d "update_command" Hset Gupdate. now injection Gupdate.
  - read_set env d "delete_command" Hset Gdelete. now injection Gdelete.
  - read_set env d "exists_command" Hset Gexists. now injection Gexists.
  - read_set env d "command_prefix" Hset Gprefix. now injection Gprefix.
  - read_set env d "command_joiner" Hset Gjoiner. now injection Gjoiner.
  - read_set env d "command_isolator" Hset Gisolator.
    now injection Gisolator.
  - read_set env d "read_line_prefix" Hset Gline. now injection Gline.
Qed.

Lemma command_texts_verbatim_witness :
  let d := with_option "update_command" (VString "  sed -i 's/a/b/' f  ")
             (with_option "command_prefix" (VString "set -e; ") minimal) in
  exists cfg,
    providerConfigure sampleLevelFromString linux d = Returns (cfg, None)
    /\ UpdateCommand cfg = "  sed -i 's/a/b/' f  "
    /\ CommandPrefix cfg = "set -e; "
    /\ CreateCommand cfg = "touch f".
Proof.
  intros d. eexists. split; [reflexivity|].
  destruct (command_texts_verbatim sampleLevelFromString linux d _ None
              eq_refl) as (Hc & _ & Hu & _ & _ & Hp & _).
  split; [exact (Hu _ eq_refl)|]. split; [exact (Hp _ eq_refl)|].
  exact (Hc _ eq_refl).
Defined.

(** ** The working directory *)

(** X3. The working directory is the one the user sets, whatever [PWD]
    is; when the user sets none it is the value of [PWD], and a
    configuration without a working directory is accepted by the schema
    only if [PWD] is not empty. *)
Theorem working_directory_resolution {Level : Type}
    (LevelFromString : string -> Level) env d cfg e :
  providerConfigure LevelFromString env d = Returns (cfg, e) ->
  (forall s, config d !! "working_directory" = Some (VString s) ->
     WorkingDirectory cfg = s)
  /\ (config d !! "working_directory" = None ->
        WorkingDirectory cfg = Getenv env "PWD"
        /\ (Validate env d = true -> Getenv env "PWD" <> "")).
Proof.
  intros H. inv_config H. split.
  - intros s Hset.
    read_set env d "working_directory" Hset Gworking. now injection Gworking.
  - intros Hunset. split.
    + read_unset env d "working_directory" Hunset Gworking.
      unfold DefaultValue, EnvDefaultFunc in Gworking. simpl in Gworking.
      destruct (String.eqb (Getenv env "PWD") "") eqn:Hpwd;
        simpl in Gworking; injection Gworking as <-; trivial.
      now apply String.eqb_eq in Hpwd.
    + intros HV Hpwd.
      unfold Validate in HV. rewrite forallb_forall in HV.
      assert (Hin : exists s, In ("working_directory", s) Provider_Schema
                              /\ schema_lookup Provider_Schema
                                   "working_directory" = Some s)
        by (eexists; split; [apply schema_lookup_In|]; reflexivity).
      destruct Hin as (s & Hin & Hs). specialize (HV _ Hin).
      injection Hs as <-. simpl in HV. unfold validate in HV.
      rewrite Hunset in HV. simpl in HV.
      unfold EnvDefaultFunc in HV. rewrite Hpwd in HV. simpl in HV.
      discriminate.
Qed.

Lemma working_directory_resolution_witness :
  let d := with_option "working_directory" (VString "/var/lib/files")
             minimal in
  (exists cfg,
     providerConfigure sampleLevelFromString linux d = Returns (cfg, None)
     /\ WorkingDirectory cfg = "/var/lib/files")
  /\ (exists cfg,
        providerConfigure sampleLevelFromString linux minimal
          = Returns (cfg, None)
        /\ WorkingDirectory cfg = "/srv").
Proof.
  intros d. split.
  - eexists. split; [reflexivity|].
    destruct (working_directory_resolution sampleLevelFromString linux d
                _ None eq_refl) as [Hset _].
    exact (Hset _ eq_refl).
  - eexists. split; [reflexivity|].
    destruct (working_directory_resolution sampleLevelFromString linux
                minimal _ None eq_refl) as [_ Hunset].
    exact (proj1 (Hunset eq_refl)).
Defined.

(** ** The logger *)



(** ** Validated configurations *)

(** The validation of one key of the schema, read off [Validate]. *)
Lemma Validate_key env d k s :
  Validate env d = true ->
  schema_lookup Provider_Schema k = Some s ->
  validate env (config d) k s = true.
Proof.
  intros HV Hk. unfold Validate in HV. rewrite forallb_forall in HV.
  apply schema_lookup_In in Hk. exact (HV _ Hk).
Qed.




(** X6. The read format of a [Config] resolved from a configuration the
    schema accepts is raw or base64, spelled exactly so. *)
Theorem read_format_validated {Level : Type}
    (LevelFromString : string -> Level) env d cfg e :
  Validate env d = true ->
  providerConfigure LevelFromString env d = Returns (cfg, e) ->
  ReadFormat cfg = "raw" \/ ReadFormat cfg = "base64".
Proof.
  intros HV H. inv_config H.
  destruct (config d !! "read_format") as [v|] eqn:Hc.
  - pose proof (Validate_key env d "read_format" _ HV eq_refl) as Hv.
    read_set env d "read_format" Hc Gformat. subst v.
    unfold validate, validateType in Hv. rewrite Hc in Hv. simpl in Hv.
    repeat (apply andb_true_iff in Hv as [_ Hv]).
    rewrite !orb_false_r in Hv.
    apply orb_true_iff in Hv as [Hv|Hv]; apply String.eqb_eq in Hv; auto.
  - read_unset env d "read_format" Hc Gformat.
    injection Gformat as <-. now left.
Qed.

Lemma read_format_validated_witness :
  let d := with_option "read_format" (VString "base64") minimal in
  Validate linux d = true
  /\ Validate linux (with_option "read_format" (VString "BASE64") minimal)
     = false
  /\ exists cfg,
       providerConfigure sampleLevelFromString linux d = Returns (cfg, None)
       /\ (ReadFormat cfg = "raw" \/ ReadFormat cfg = "base64").
Proof.
  intros d. split; [reflexivity|]. split; [reflexivity|].
  eexists. split; [reflexivity|].
  apply (read_format_validated sampleLevelFromString linux d _ None);
    reflexivity.
Defined.

(** ** The environment *)

(** The environment reaches a read through [PWD] alone. *)
Lemma Get_same_PWD env1 env2 d k :
  Getenv env1 "PWD" = Getenv env2 "PWD" -> Get env1 d k = Get env2 d k.
Proof.
  intros Hpwd. unfold Get.
  destruct (schema_lookup Provider_Schema k) as [s|] eqn:Hk; trivial.
  destruct (config d !! k); trivial. f_equal.
  apply schema_lookup_In in Hk. simpl in Hk.
  repeat (destruct Hk as [Hk|Hk]; [injection Hk as _ <-; try reflexivity|]);
    [|contradiction].
  unfold DefaultValue, EnvDefaultFunc. simpl. now rewrite Hpwd.
Qed.

(** X7. The operating system has no effect on the resolution: two
    environments with the same [PWD] and the same [TF_ACC] give the same
    outcome on every input, whatever [runtime.GOOS] is in each. *)
Theorem GOOS_is_ignored {Level : Type}
    (LevelFromString : string -> Level) env1 env2 d :
  Getenv env1 "PWD" = Getenv env2 "PWD" ->
  Getenv env1 "TF_ACC" = Getenv env2 "TF_ACC" ->
  providerConfigure LevelFromString env1 d
  = providerConfigure LevelFromString env2 d.
Proof.
  intros Hpwd Htf. unfold providerConfigure.
  rewrite !(Get_same_PWD env1 env2 d _ Hpwd), Htf. reflexivity.
Qed.

Lemma GOOS_is_ignored_witness :
  GOOS (on_GOOS "windows" linux) <> GOOS linux
  /\ providerConfigure sampleLevelFromString (on_GOOS "windows" linux) minimal
     = providerConfigure sampleLevelFromString linux minimal.
Proof.
  split; [discriminate|].
  apply (GOOS_is_ignored sampleLevelFromString
           (on_GOOS "windows" linux) linux minimal); reflexivity.
Defined.

(** ** Independence of the groups of fields *)

(** X8. With an empty update command the three update booleans are
    ignored altogether: two inputs that differ only in them resolve to
    the same [Config]. *)
Theorem empty_update_ignores_flags {Level : Type}
    (LevelFromString : string -> Level) env d1 d2 c1 c2 e1 e2 :
  differ_only_in flag_keys d1 d2 ->
  Get env d1 "update_command" = VString "" ->
  providerConfigure LevelFromString env d1 = Returns (c1, e1) ->
  providerConfigure LevelFromString env d2 = Returns (c2, e2) ->
  c1 = c2.
Proof.
  intros Hd Hu H1 H2.
  assert (Hu2 : Get env d2 "update_command" = VString "").
  { rewrite <- Hu. symmetry.
    apply (Get_differ_only_in flag_keys); [exact Hd | outside]. }
  pose proof (core_fields_agree LevelFromString env d1 d2 c1 c2 e1 e2 H1 H2
                flag_keys Hd) as Hcore.
  pose proof (logging_fields_agree LevelFromString env d1 d2 c1 c2 e1 e2
                H1 H2 flag_keys Hd) as Hlog.
  assert (Hupd : update_agree c1 c2).
  { clear Hcore Hlog. inv_config H1.
    rewrite Hu in Gupdate. injection Gupdate as Hu1.
    rewrite <- Hu1 in Hflags. simpl in Hflags.
    injection Hflags as Hd1 Ha1 Hb1.
    apply providerConfigure_inv in H2
      as (_ & _ & _ & (dbu2 & cau2 & cbu2 & _ & _ & _ & Hflags2) & Gu2 & _).
    rewrite Hu2 in Gu2. injection Gu2 as Hu2'.
    rewrite <- Hu2' in Hflags2. simpl in Hflags2.
    injection Hflags2 as Hd2 Ha2 Hb2.
    unfold update_agree. repeat split; congruence. }
  assert (Hc : core_agree c1 c2).
  { apply Hcore. intros k. simpl. intuition. }
  assert (Hl : logging_agree c1 c2).
  { apply Hlog. intros k. simpl. intuition congruence. }
  clear - Hupd Hc Hl.
  unfold core_agree in Hc. unfold logging_agree in Hl.
  unfold update_agree in Hupd.
  destruct c1, c2. simpl in *.
  decompose [and] Hc. decompose [and] Hl. decompose [and] Hupd.
  subst. reflexivity.
Qed.

Lemma empty_update_ignores_flags_witness :
  let d1 := with_option "create_before_update" (VBool true) minimal in
  let d2 := with_option "delete_before_update" (VBool false)
              (with_option "create_after_update" (VBool false) minimal) in
  differ_only_in flag_keys d1 d2
  /\ exists c1 c2,
       providerConfigure sampleLevelFromString linux d1 = Returns (c1, None)
       /\ providerConfigure sampleLevelFromString linux d2
            = Returns (c2, None)
       /\ c1 = c2.
Proof.
  intros d1 d2.
  assert (Hd : differ_only_in flag_keys d1 d2) by (vm_compute; reflexivity).
  split; [exact Hd|].
  eexists. eexists. split; [reflexivity|]. split; [reflexivity|].
  apply (empty_update_ignores_flags sampleLevelFromString linux d1 d2
           _ _ None None Hd); reflexivity.
Defined.

(** X9. The update command and the three update flags of a [Config]
    depend on the four update keys alone: two inputs that differ only in
    other keys resolve to the same update fields. *)
Theorem update_fields_depend_on_update_keys {Level : Type}
    (LevelFromString : string -> Level) env ks d1 d2 c1 c2 e1 e2 :
  (forall k, In k ks -> ~ In k update_keys) ->
  differ_only_in ks d1 d2 ->
  providerConfigure LevelFromString env d1 = Returns (c1, e1) ->
  providerConfigure LevelFromString env d2 = Returns (c2, e2) ->
  update_agree c1 c2.
Proof.
  intros Hks Hd H1 H2.
  exact (update_fields_agree LevelFromString env d1 d2 c1 c2 e1 e2 H1 H2
           ks Hd Hks).
Qed.

Lemma update_fields_depend_on_update_keys_witness :
  let ks := ["buffer_size"; "log_level"; "interpreter"] in
  let d1 := with_option "update_command" (VString "patch f")
              (with_option "create_after_update" (VBool true) minimal) in
  let d2 := with_option "buffer_size" (VInt 64)
              (with_option "interpreter" (VList [VString "bash"; VString "-c"])
                d1) in
  (forall k, In k ks -> ~ In k update_keys)
  /\ differ_only_in ks d1 d2
  /\ exists c1 c2,
       providerConfigure sampleLevelFromString linux d1 = Returns (c1, None)
       /\ providerConfigure sampleLevelFromString linux d2
            = Returns (c2, None)
       /\ Interpreter c1 <> Interpreter c2
       /\ update_agree c1 c2.
Proof.
  intros ks d1 d2.
  assert (Hks : forall k, In k ks -> ~ In k update_keys)
    by (intros k; simpl; intuition congruence).
  assert (Hd : differ_only_in ks d1 d2) by (vm_compute; reflexivity).
  split; [exact Hks|]. split; [exact Hd|].
  eexists. eexists. split; [reflexivity|]. split; [reflexivity|].
  split; [discriminate|].
  apply (update_fields_depend_on_update_keys sampleLevelFromString linux ks
           d1 d2 _ _ None None Hks Hd); reflexivity.
Defined.

(** ** Panics *)

Lemma forallb_fmap_VString (r : list string) :
  forallb (has_dynamic_type TypeString) (VString <$> r) = true.
Proof. induction r; simpl; trivial. Qed.

(** Keeps the one shape of value that a read of the asserted type has. *)
Ltac read_asserted env d :=
  repeat match goal with
         | H : has_dynamic_type _ (Get env d ?k) = true |- _ =>
             destruct (Get env d k) eqn:?; try discriminate H; clear H
         end.

(** X10. [providerConfigure] returns, with a nil error, exactly when
    every value it reads has the type its assertion names and every
    element of the interpreter list is a string; on any other input it
    panics, and in no case does it return an error. *)
Theorem returns_iff_reads_ok {Level : Type}
    (LevelFromString : string -> Level) env d :
  ((exists cfg, providerConfigure LevelFromString env d = Returns (cfg, None))
   <-> reads_ok env d = true)
  /\ (providerConfigure LevelFromString env d = Panics
      <-> reads_ok env d = false).
Proof.
  assert (Hok : reads_ok env d = true ->
    exists cfg, providerConfigure LevelFromString env d = Returns (cfg, None)).
  { intros H. unfold reads_ok in H. apply andb_true_iff in H as [H Hl].
    unfold asserted_reads in H. cbn [forallb fst snd] in H.
    repeat (apply andb_true_iff in H as [?Hk H]). clear H.
    destruct (Get env d "interpreter") as [| | | |l] eqn:Hi;
      try discriminate Hl. clear Hk.
    read_asserted env d.
    unfold providerConfigure. rewrite Hi. simpl.
    destruct (copy_loop_total
      (if (length l =? 0)%nat then [VString "/bin/sh"; VString "-c"] else l))
      as [r Hr].
    { destruct (length l =? 0)%nat; trivial. }
    rewrite Hr. simpl.
    repeat match goal with
           | Heq : Get env d _ = _ |- _ => rewrite Heq; clear Heq; simpl
           end.
    match goal with
    | |- context [if String.eqb ?update "" then _ else _] =>
        destruct (String.eqb update "")
    end; eauto. }
  assert (Hret : forall cfg e,
    providerConfigure LevelFromString env d = Returns (cfg, e) ->
    reads_ok env d = true).
  { intros cfg e H. inv_config H. unfold reads_ok. simpl.
    rewrite Ginterpreter, Glog_level, Gdbu, Gcau, Gcbu, Gupdate,
      Gcommand_log_level, Gwidth, Gisolator, Gjoiner, Gprefix, Gworking,
      Gparent, Gbuffer, Gcreate, Gread, Gfailure, Gformat, Gline, Gdelete,
      Gexists, Gstatus, Gname.
    simpl. destruct interpreterI as [|v l]; trivial.
    simpl in Hinterpreter. rewrite <- Hinterpreter.
    apply forallb_fmap_VString. }
  split; split.
  - intros [cfg H]. exact (Hret cfg None H).
  - exact Hok.
  - intros Hp. destruct (reads_ok env d) eqn:Hr; trivial.
    destruct (Hok eq_refl) as [cfg H]. rewrite H in Hp. discriminate.
  - intros Hr.
    destruct (providerConfigure LevelFromString env d) as [[cfg e]|];
      trivial.
    rewrite (Hret cfg e eq_refl) in Hr. discriminate.
Qed.

(** A list whose second element is not a string makes the copy loop
    panic. *)
Example interpreter_element_panics :
  providerConfigure sampleLevelFromString linux
    (with_option "interpreter" (VList [VString "sh"; VInt 3]) minimal)
  = Panics.
Proof. reflexivity. Qed.

(** ** What the schema refuses and what it lets through *)

(** X11. The schema refuses every configuration that sets both
    [create_before_update] and [create_after_update], whatever the two
    values are, two [false] included. *)
Theorem conflicting_flags_refused env d v1 v2 :
  config d !! "create_before_update" = Some v1 ->
  config d !! "create_after_update" = Some v2 ->
  Validate env d = false.
Proof.
  intros H1 H2. destruct (Validate env d) eqn:HV; trivial.
  destruct (conflicting_keys_not_both_set env d HV); congruence.
Qed.

Lemma conflicting_flags_refused_witness :
  let d := with_option "create_before_update" (VBool false)
             (with_option "create_after_update" (VBool false) minimal) in
  Validate linux minimal = true /\ Validate linux d = false.
Proof.
  intros d. split; [reflexivity|].
  apply (conflicting_flags_refused linux d (VBool false) (VBool false));
    reflexivity.
Defined.

(** Setting a key leaves the validation of every other key as it was,
    unless that key lists it in [ConflictsWith]. *)
Lemma validate_insert_other env c k0 v k s :
  k <> k0 -> ~ In k0 (ConflictsWith s) ->
  validate env (<[k0 := v]> c) k s = validate env c k s.
Proof.
  intros Hk Hconf. unfold validate.
  rewrite lookup_insert_ne by congruence.
  assert (Hc : validateConflictingAttributes s (<[k0 := v]> c)
               = validateConflictingAttributes s c).
  { unfold validateConflictingAttributes.
    induction (ConflictsWith s) as [|k' ks IH]; simpl; trivial.
    rewrite IH by (simpl in Hconf; tauto).
    unfold is_set. rewrite lookup_insert_ne; trivial.
    simpl in Hconf. intros ->. tauto. }
  now rewrite Hc.
Qed.

(** X12. The schema puts no bound on the three integer options: on a
    configuration it accepts, [buffer_size], [command_log_width] or
    [exists_expected_status] may be set to any machine integer, zero and
    negative numbers included, and the configuration is still accepted. *)
Theorem integer_options_unbounded env d k n :
  In k ["buffer_size"; "command_log_width"; "exists_expected_status"] ->
  is_int n = true ->
  Validate env d = true ->
  Validate env (with_option k (VInt n) d) = true.
Proof.
  intros Hk Hn HV. unfold Validate in *. rewrite forallb_forall in *.
  intros [k' s] Hin. specialize (HV _ Hin). simpl in *.
  destruct (String.eqb k' k) eqn:E.
  - apply String.eqb_eq in E. subst k'.
    pose proof (In_schema_lookup _ _ _ Provider_Schema_keys Hin) as Hs.
    unfold validate. rewrite lookup_insert_eq.
    destruct Hk as [<-|[<-|[<-|[]]]]; cbn in Hs; injection Hs as <-;
      cbn -[is_int]; now rewrite Hn.
  - apply String.eqb_neq in E.
    rewrite validate_insert_other; trivial.
    clear HV. simpl in Hin.
    repeat (destruct Hin as [Hin|Hin];
            [injection Hin as _ <-; simpl;
             destruct Hk as [<-|[<-|[<-|[]]]]; intuition discriminate|]).
    contradiction.
Qed.

Lemma integer_options_unbounded_witness :
  In "command_log_width"
     ["buffer_size"; "command_log_width"; "exists_expected_status"]
  /\ is_int (-80) = true
  /\ Validate linux minimal = true
  /\ Validate linux (with_option "command_log_width" (VInt (-80)) minimal)
     = true.
Proof.
  assert (Hk : In "command_log_width"
    ["buffer_size"; "command_log_width"; "exists_expected_status"])
    by (simpl; tauto).
  split; [exact Hk|]. split; [reflexivity|]. split; [reflexivity|].
  apply (integer_options_unbounded linux minimal "command_log_width" (-80) Hk);
    reflexivity.
Defined.
